(** * Woyofal estimator: the tiered-rate conversion engine

    Shallow embedding of the numeric core of the estimator
    ([validateInput] of [utils.ts], the constants of [constants.ts], and
    [isSettingsValid], [getBreakdownFromKWh], [getKWhFromFcfa],
    [applianceRows] and [monthlyData] of the [App] component).

    Numbers.  A JavaScript [number] is modelled by [number]: [NaN], the
    two infinities, and the finite values.  Finite values are exact
    rationals: the arithmetic below follows IEEE 754 for the special
    values (NaN propagation, [Inf - Inf], [0 * Inf], division by zero)
    and is exact on finite operands.  Binary64 rounding, overflow to
    infinity and the sign of zero are outside this model.

    Module [B64] embeds the tier breakdown a second time with [number]
    read as an IEEE 754 binary64 value, every operation rounding as the
    code does when it runs; it decides what the breakdown produces
    exactly at a given input. *)

From Corelib Require Import PrimFloat.
From Stdlib Require Import QArith Qminmax Lqa Lia List Bool String.
Import ListNotations.

(** Decimal literals such as [136.49] denote the nearest binary64 value,
    as they do in the source. *)
Set Warnings "-inexact-float".

Open Scope Q_scope.

(** ** JavaScript numbers *)

Module JS.

Inductive number : Type :=
  | NaN
  | NegInf
  | Fin (q : Q)
  | PosInf.

Coercion Fin : Q >-> number.

Definition isNaN (x : number) : bool :=
  match x with NaN => true | _ => false end.

Definition isFinite (x : number) : bool :=
  match x with Fin _ => true | _ => false end.

(** [Qltb a b] decides [a < b]. *)
Definition Qltb (a b : Q) : bool := negb (Qle_bool b a).

(** [x + y]. *)
Definition add (x y : number) : number :=
  match x, y with
  | NaN, _ | _, NaN => NaN
  | PosInf, NegInf | NegInf, PosInf => NaN
  | PosInf, _ | _, PosInf => PosInf
  | NegInf, _ | _, NegInf => NegInf
  | Fin a, Fin b => Fin (a + b)
  end.

(** [x - y]. *)
Definition sub (x y : number) : number :=
  match x, y with
  | NaN, _ | _, NaN => NaN
  | PosInf, PosInf | NegInf, NegInf => NaN
  | PosInf, _ | _, NegInf => PosInf
  | NegInf, _ | _, PosInf => NegInf
  | Fin a, Fin b => Fin (a - b)
  end.

(** An infinity of the sign of [q] times the sign given by [pos];
    [0 * Infinity] is [NaN]. *)
Definition inf_times (pos : bool) (q : Q) : number :=
  if Qeq_bool q 0 then NaN
  else if Bool.eqb pos (Qltb 0 q) then PosInf else NegInf.

(** [x * y]. *)
Definition mul (x y : number) : number :=
  match x, y with
  | NaN, _ | _, NaN => NaN
  | PosInf, PosInf | NegInf, NegInf => PosInf
  | PosInf, NegInf | NegInf, PosInf => NegInf
  | PosInf, Fin q | Fin q, PosInf => inf_times true q
  | NegInf, Fin q | Fin q, NegInf => inf_times false q
  | Fin a, Fin b => Fin (a * b)
  end.

(** [x / y].  A finite non-zero value over zero is an infinity of the
    sign of the numerator, [0 / 0] is [NaN]. *)
Definition div (x y : number) : number :=
  match x, y with
  | NaN, _ | _, NaN => NaN
  | PosInf, Fin q => if Qltb q 0 then NegInf else PosInf
  | NegInf, Fin q => if Qltb q 0 then PosInf else NegInf
  | Fin _, PosInf | Fin _, NegInf => Fin 0
  | Fin a, Fin b =>
      if Qeq_bool b 0 then inf_times true a else Fin (a / b)
  | _, _ => NaN
  end.

(** [Math.min(x, y)]. *)
Definition min (x y : number) : number :=
  match x, y with
  | NaN, _ | _, NaN => NaN
  | NegInf, _ | _, NegInf => NegInf
  | PosInf, z | z, PosInf => z
  | Fin a, Fin b => Fin (Qmin a b)
  end.

(** [Math.max(x, y)]. *)
Definition max (x y : number) : number :=
  match x, y with
  | NaN, _ | _, NaN => NaN
  | PosInf, _ | _, PosInf => PosInf
  | NegInf, z | z, NegInf => z
  | Fin a, Fin b => Fin (Qmax a b)
  end.

(** [x <= y]: false as soon as an operand is [NaN]. *)
Definition leb (x y : number) : bool :=
  match x, y with
  | NaN, _ | _, NaN => false
  | NegInf, _ | _, PosInf => true
  | _, NegInf | PosInf, _ => false
  | Fin a, Fin b => Qle_bool a b
  end.

(** [x < y]. *)
Definition ltb (x y : number) : bool :=
  match x, y with
  | NaN, _ | _, NaN => false
  | PosInf, _ | _, NegInf => false
  | NegInf, _ | _, PosInf => true
  | Fin a, Fin b => Qltb a b
  end.

(** [x >= y] and [x > y]. *)
Definition geb (x y : number) : bool := leb y x.
Definition gtb (x y : number) : bool := ltb y x.

(** [x === y] on numbers: [NaN] is different from itself. *)
Definition eqb (x y : number) : bool :=
  match x, y with
  | NegInf, NegInf | PosInf, PosInf => true
  | Fin a, Fin b => Qeq_bool a b
  | _, _ => false
  end.

End JS.

Import JS.

Declare Scope js_scope.
Delimit Scope js_scope with js.
Bind Scope js_scope with number.
Infix "+" := JS.add : js_scope.
Infix "-" := JS.sub : js_scope.
Infix "*" := JS.mul : js_scope.
Infix "/" := JS.div : js_scope.
Infix "<=?" := JS.leb (at level 70) : js_scope.
Infix "<?" := JS.ltb (at level 70) : js_scope.
Infix ">=?" := JS.geb (at level 70) : js_scope.
Infix ">?" := JS.gtb (at level 70) : js_scope.
Infix "===" := JS.eqb (at level 70) : js_scope.

Open Scope js_scope.

(** ** Data model ([types.ts]) *)

Record GlobalSettings : Type := {
  daysPerMonth : number;
  priceT1 : number;
  priceT2 : number;
  priceT3 : number
}.

Record TierConfig : Type := {
  threshold1 : number;
  threshold2 : number
}.

Inductive CalculationMode : Type := APPLIANCE | MONTHLY.

Inductive MonthlyInputMode : Type := KWH | WATTS | FCFA.

Module ApplianceRow.
Record t : Type := {
  hours : number;
  kWh : number;
  costT1 : number;
  costT2 : number;
  costT3 : number
}.
End ApplianceRow.

Module MonthlyBreakdown.
Record t : Type := {
  tier : string;
  kWh : number;
  price : number;
  cost : number
}.
End MonthlyBreakdown.

(** The object returned by [monthlyData]. *)
Module MonthlyData.
Record t : Type := {
  kWh : number;
  cost : number;
  breakdown : list MonthlyBreakdown.t
}.
End MonthlyData.

(** ** Constants ([constants.ts]) *)

Definition DEFAULT_SETTINGS : GlobalSettings := {|
  daysPerMonth := 30;
  priceT1 := 82.00;
  priceT2 := 136.49;
  priceT3 := 159.36
|}.

Definition TIER_CONFIG : TierConfig := {|
  threshold1 := 150;
  threshold2 := 250
|}.

Definition DEFAULT_WATTS : number := 175.
Definition DEFAULT_TOTAL_KWH : number := 550.

Definition APPLIANCE_HOURS : list number := [Fin 4; Fin 8; Fin 12; Fin 24].

(** ** Input validation ([utils.ts]) *)

(** [allowZero] defaults to [true] in the source; every call below
    passes it. *)
Definition validateInput (val : number) (allowZero : bool) : bool :=
  if isNaN val then false
  else if allowZero then val >=? 0
  else val >? 0.

(** ** The component's logic ([App]) *)

Section App.

(** The pieces of component state the logic reads. *)
Variable settings : GlobalSettings.
Variable monthlyInputMode : MonthlyInputMode.
Variable applianceWatts : number.
Variable totalKWhInput : number.
Variable monthlyWatts : number.
Variable monthlyHours : number.
Variable purchaseAmountFcfa : number.

Definition isSettingsValid : bool :=
  validateInput settings.(daysPerMonth) false &&
  validateInput settings.(priceT1) true &&
  validateInput settings.(priceT2) true &&
  validateInput settings.(priceT3) true.

Definition getBreakdownFromKWh (kWh : number) : list MonthlyBreakdown.t :=
  let k1 := JS.min kWh TIER_CONFIG.(threshold1) in
  let k2 := JS.min (JS.max (kWh - TIER_CONFIG.(threshold1)) 0)
                   (TIER_CONFIG.(threshold2) - TIER_CONFIG.(threshold1)) in
  let k3 := JS.max (kWh - TIER_CONFIG.(threshold2)) 0 in
  [ {| MonthlyBreakdown.tier := "Tier 1 (0-150)";
       MonthlyBreakdown.kWh := k1;
       MonthlyBreakdown.price := settings.(priceT1);
       MonthlyBreakdown.cost := k1 * settings.(priceT1) |};
    {| MonthlyBreakdown.tier := "Tier 2 (151-250)";
       MonthlyBreakdown.kWh := k2;
       MonthlyBreakdown.price := settings.(priceT2);
       MonthlyBreakdown.cost := k2 * settings.(priceT2) |};
    {| MonthlyBreakdown.tier := "Tier 3 (>250)";
       MonthlyBreakdown.kWh := k3;
       MonthlyBreakdown.price := settings.(priceT3);
       MonthlyBreakdown.cost := k3 * settings.(priceT3) |} ].

Definition getKWhFromFcfa (amount : number) : number :=
  let maxCostT1 := TIER_CONFIG.(threshold1) * settings.(priceT1) in
  let maxKWhT2 := TIER_CONFIG.(threshold2) - TIER_CONFIG.(threshold1) in
  let maxCostT2 := maxKWhT2 * settings.(priceT2) in
  if amount <=? maxCostT1 then amount / settings.(priceT1)
  else if amount <=? maxCostT1 + maxCostT2 then
    TIER_CONFIG.(threshold1) + (amount - maxCostT1) / settings.(priceT2)
  else
    TIER_CONFIG.(threshold2)
    + (amount - maxCostT1 - maxCostT2) / settings.(priceT3).

Definition applianceRows : list ApplianceRow.t :=
  if negb isSettingsValid || negb (validateInput applianceWatts true) then []
  else
    map (fun hours =>
           let kWh := (applianceWatts / 1000) * hours
                      * settings.(daysPerMonth) in
           {| ApplianceRow.hours := hours;
              ApplianceRow.kWh := kWh;
              ApplianceRow.costT1 := kWh * settings.(priceT1);
              ApplianceRow.costT2 := kWh * settings.(priceT2);
              ApplianceRow.costT3 := kWh * settings.(priceT3) |})
        APPLIANCE_HOURS.

(** [breakdown.reduce((acc, b) => acc + b.cost, 0)]. *)
Definition sumCost (breakdown : list MonthlyBreakdown.t) : number :=
  fold_left (fun acc b => acc + b.(MonthlyBreakdown.cost)) breakdown (Fin 0).

(** The two [let] variables of [monthlyData] after the mode dispatch. *)
Definition effective : number * number :=
  match monthlyInputMode with
  | KWH => (totalKWhInput, Fin 0)
  | WATTS =>
      ((monthlyWatts / 1000) * monthlyHours * settings.(daysPerMonth), Fin 0)
  | FCFA =>
      let effectiveCost := purchaseAmountFcfa in
      (getKWhFromFcfa effectiveCost, effectiveCost)
  end.

Definition monthlyData : MonthlyData.t :=
  let effectiveKWh := fst effective in
  let breakdown := getBreakdownFromKWh effectiveKWh in
  let effectiveCost :=
    match monthlyInputMode with
    | FCFA => purchaseAmountFcfa
    | _ => sumCost breakdown
    end in
  {| MonthlyData.kWh := effectiveKWh;
     MonthlyData.cost := effectiveCost;
     MonthlyData.breakdown := breakdown |}.

End App.

(** ** Derived quantities used to state the properties *)

(** The three slice energies of a breakdown, in order. *)
Definition sliceEnergies (bd : list MonthlyBreakdown.t) : list number :=
  map MonthlyBreakdown.kWh bd.

(** The per-tier costs of a breakdown, in order. *)
Definition sliceCosts (bd : list MonthlyBreakdown.t) : list number :=
  map MonthlyBreakdown.cost bd.

(** Two lists of numbers are equal element by element for [===]. *)
Definition sameNumbers (xs ys : list number) : Prop :=
  Forall2 (fun x y => (x === y) = true) xs ys.

(** Total cost of the breakdown of an energy. *)
Definition totalCost (settings : GlobalSettings) (kWh : number) : number :=
  sumCost (getBreakdownFromKWh settings kWh).

(** The slices on finite energies, as rational functions. *)
Definition slice1 (e : Q) : Q := Qmin e 150.
Definition slice2 (e : Q) : Q := Qmin (Qmax (e - 150) 0) (250 - 150).
Definition slice3 (e : Q) : Q := Qmax (e - 250) 0.

(** The energy bought by a finite amount, as a rational function of the
    amount and of three non-zero prices. *)
Definition energyOf (p1 p2 p3 a : Q) : Q :=
  if Qle_bool a (150 * p1) then a / p1
  else if Qle_bool a (150 * p1 + (250 - 150) * p2) then
    150 + (a - 150 * p1) / p2
  else 250 + (a - 150 * p1 - (250 - 150) * p2) / p3.

(** The cost shown is the sum of the three per-tier costs, accumulated
    from zero as [reduce] does. *)
Definition costIsSumOfTiers (m : MonthlyData.t) : Prop :=
  exists b1 b2 b3 : MonthlyBreakdown.t,
    MonthlyData.breakdown m = [b1; b2; b3]
    /\ MonthlyData.cost m
       = Fin 0 + b1.(MonthlyBreakdown.cost)
         + b2.(MonthlyBreakdown.cost) + b3.(MonthlyBreakdown.cost).

(** One row of the appliance table. *)
Definition applianceRow (s : GlobalSettings) (watts hours : number)
  : ApplianceRow.t :=
  let kWh := (watts / 1000) * hours * s.(daysPerMonth) in
  {| ApplianceRow.hours := hours;
     ApplianceRow.kWh := kWh;
     ApplianceRow.costT1 := kWh * s.(priceT1);
     ApplianceRow.costT2 := kWh * s.(priceT2);
     ApplianceRow.costT3 := kWh * s.(priceT3) |}.

(** The gate of the projector as the claim words it: every field is a
    finite number of the right sign. *)
Definition finiteAndSigned (s : GlobalSettings) (watts : number) : bool :=
  (isFinite s.(daysPerMonth) && (s.(daysPerMonth) >? 0))
  && (isFinite s.(priceT1) && (s.(priceT1) >=? 0))
  && (isFinite s.(priceT2) && (s.(priceT2) >=? 0))
  && (isFinite s.(priceT3) && (s.(priceT3) >=? 0))
  && (isFinite watts && (watts >=? 0)).

(** A rate configuration with a negative first price, as the price field
    of the form lets it be entered. *)
Definition negativePriceSettings : GlobalSettings :=
  Build_GlobalSettings 30 (-82) 136.49 159.36.

(** ** The input boundary and the component state ([App]) *)

(** [ToBoolean] on a number: zero and [NaN] are falsy. *)
Definition truthy (x : number) : bool :=
  match x with
  | NaN => false
  | Fin q => negb (Qeq_bool q 0)
  | _ => true
  end.

(** [x || d] on numbers, as in [parseFloat(e.target.value) || 0]. *)
Definition orElse (x d : number) : number := if truthy x then x else d.

(** The [useState] cells of the component. *)
Module AppState.
Record t : Type := {
  settings : GlobalSettings;
  mode : CalculationMode;
  monthlyInputMode : MonthlyInputMode;
  isSidebarOpen : bool;
  applianceWatts : number;
  totalKWhInput : number;
  monthlyWatts : number;
  monthlyHours : number;
  purchaseAmountFcfa : number;
  toast : option string
}.
End AppState.

(** The state of the first render. *)
Definition initialState : AppState.t := {|
  AppState.settings := DEFAULT_SETTINGS;
  AppState.mode := APPLIANCE;
  AppState.monthlyInputMode := KWH;
  AppState.isSidebarOpen := false;
  AppState.applianceWatts := DEFAULT_WATTS;
  AppState.totalKWhInput := DEFAULT_TOTAL_KWH;
  AppState.monthlyWatts := 1000;
  AppState.monthlyHours := 8;
  AppState.purchaseAmountFcfa := 20000;
  AppState.toast := None
|}.

(** The state setters. *)
Definition setSettings (st : AppState.t) (v : GlobalSettings) : AppState.t :=
  {| AppState.settings := v;
     AppState.mode := st.(AppState.mode);
     AppState.monthlyInputMode := st.(AppState.monthlyInputMode);
     AppState.isSidebarOpen := st.(AppState.isSidebarOpen);
     AppState.applianceWatts := st.(AppState.applianceWatts);
     AppState.totalKWhInput := st.(AppState.totalKWhInput);
     AppState.monthlyWatts := st.(AppState.monthlyWatts);
     AppState.monthlyHours := st.(AppState.monthlyHours);
     AppState.purchaseAmountFcfa := st.(AppState.purchaseAmountFcfa);
     AppState.toast := st.(AppState.toast) |}.

Definition setMode (st : AppState.t) (v : CalculationMode) : AppState.t :=
  {| AppState.settings := st.(AppState.settings);
     AppState.mode := v;
     AppState.monthlyInputMode := st.(AppState.monthlyInputMode);
     AppState.isSidebarOpen := st.(AppState.isSidebarOpen);
     AppState.applianceWatts := st.(AppState.applianceWatts);
     AppState.totalKWhInput := st.(AppState.totalKWhInput);
     AppState.monthlyWatts := st.(AppState.monthlyWatts);
     AppState.monthlyHours := st.(AppState.monthlyHours);
     AppState.purchaseAmountFcfa := st.(AppState.purchaseAmountFcfa);
     AppState.toast := st.(AppState.toast) |}.

Definition setMonthlyInputMode (st : AppState.t) (v : MonthlyInputMode)
  : AppState.t :=
  {| AppState.settings := st.(AppState.settings);
     AppState.mode := st.(AppState.mode);
     AppState.monthlyInputMode := v;
     AppState.isSidebarOpen := st.(AppState.isSidebarOpen);
     AppState.applianceWatts := st.(AppState.applianceWatts);
     AppState.totalKWhInput := st.(AppState.totalKWhInput);
     AppState.monthlyWatts := st.(AppState.monthlyWatts);
     AppState.monthlyHours := st.(AppState.monthlyHours);
     AppState.purchaseAmountFcfa := st.(AppState.purchaseAmountFcfa);
     AppState.toast := st.(AppState.toast) |}.

Definition setIsSidebarOpen (st : AppState.t) (v : bool) : AppState.t :=
  {| AppState.settings := st.(AppState.settings);
     AppState.mode := st.(AppState.mode);
     AppState.monthlyInputMode := st.(AppState.monthlyInputMode);
     AppState.isSidebarOpen := v;
     AppState.applianceWatts := st.(AppState.applianceWatts);
     AppState.totalKWhInput := st.(AppState.totalKWhInput);
     AppState.monthlyWatts := st.(AppState.monthlyWatts);
     AppState.monthlyHours := st.(AppState.monthlyHours);
     AppState.purchaseAmountFcfa := st.(AppState.purchaseAmountFcfa);
     AppState.toast := st.(AppState.toast) |}.

Definition setApplianceWatts (st : AppState.t) (v : number) : AppState.t :=
  {| AppState.settings := st.(AppState.settings);
     AppState.mode := st.(AppState.mode);
     AppState.monthlyInputMode := st.(AppState.monthlyInputMode);
     AppState.isSidebarOpen := st.(AppState.isSidebarOpen);
     AppState.applianceWatts := v;
     AppState.totalKWhInput := st.(AppState.totalKWhInput);
     AppState.monthlyWatts := st.(AppState.monthlyWatts);
     AppState.monthlyHours := st.(AppState.monthlyHours);
     AppState.purchaseAmountFcfa := st.(AppState.purchaseAmountFcfa);
     AppState.toast := st.(AppState.toast) |}.

Definition setTotalKWhInput (st : AppState.t) (v : number) : AppState.t :=
  {| AppState.settings := st.(AppState.settings);
     AppState.mode := st.(AppState.mode);
     AppState.monthlyInputMode := st.(AppState.monthlyInputMode);
     AppState.isSidebarOpen := st.(AppState.isSidebarOpen);
     AppState.applianceWatts := st.(AppState.applianceWatts);
     AppState.totalKWhInput := v;
     AppState.monthlyWatts := st.(AppState.monthlyWatts);
     AppState.monthlyHours := st.(AppState.monthlyHours);
     AppState.purchaseAmountFcfa := st.(AppState.purchaseAmountFcfa);
     AppState.toast := st.(AppState.toast) |}.

Definition setMonthlyWatts (st : AppState.t) (v : number) : AppState.t :=
  {| AppState.settings := st.(AppState.settings);
     AppState.mode := st.(AppState.mode);
     AppState.monthlyInputMode := st.(AppState.monthlyInputMode);
     AppState.isSidebarOpen := st.(AppState.isSidebarOpen);
     AppState.applianceWatts := st.(AppState.applianceWatts);
     AppState.totalKWhInput := st.(AppState.totalKWhInput);
     AppState.monthlyWatts := v;
     AppState.monthlyHours := st.(AppState.monthlyHours);
     AppState.purchaseAmountFcfa := st.(AppState.purchaseAmountFcfa);
     AppState.toast := st.(AppState.toast) |}.

Definition setMonthlyHours (st : AppState.t) (v : number) : AppState.t :=
  {| AppState.settings := st.(AppState.settings);
     AppState.mode := st.(AppState.mode);
     AppState.monthlyInputMode := st.(AppState.monthlyInputMode);
     AppState.isSidebarOpen := st.(AppState.isSidebarOpen);
     AppState.applianceWatts := st.(AppState.applianceWatts);
     AppState.totalKWhInput := st.(AppState.totalKWhInput);
     AppState.monthlyWatts := st.(AppState.monthlyWatts);
     AppState.monthlyHours := v;
     AppState.purchaseAmountFcfa := st.(AppState.purchaseAmountFcfa);
     AppState.toast := st.(AppState.toast) |}.

Definition setPurchaseAmountFcfa (st : AppState.t) (v : number) : AppState.t :=
  {| AppState.settings := st.(AppState.settings);
     AppState.mode := st.(AppState.mode);
     AppState.monthlyInputMode := st.(AppState.monthlyInputMode);
     AppState.isSidebarOpen := st.(AppState.isSidebarOpen);
     AppState.applianceWatts := st.(AppState.applianceWatts);
     AppState.totalKWhInput := st.(AppState.totalKWhInput);
     AppState.monthlyWatts := st.(AppState.monthlyWatts);
     AppState.monthlyHours := st.(AppState.monthlyHours);
     AppState.purchaseAmountFcfa := v;
     AppState.toast := st.(AppState.toast) |}.

Definition setToast (st : AppState.t) (v : option string) : AppState.t :=
  {| AppState.settings := st.(AppState.settings);
     AppState.mode := st.(AppState.mode);
     AppState.monthlyInputMode := st.(AppState.monthlyInputMode);
     AppState.isSidebarOpen := st.(AppState.isSidebarOpen);
     AppState.applianceWatts := st.(AppState.applianceWatts);
     AppState.totalKWhInput := st.(AppState.totalKWhInput);
     AppState.monthlyWatts := st.(AppState.monthlyWatts);
     AppState.monthlyHours := st.(AppState.monthlyHours);
     AppState.purchaseAmountFcfa := st.(AppState.purchaseAmountFcfa);
     AppState.toast := v |}.

(** [showToast]: the message is set at once; the timer that clears it
    three seconds later is the event [ToastTimeout] below. *)
Definition showToast (st : AppState.t) (msg : string) : AppState.t :=
  setToast st (Some msg).

Definition resetDefaults (st : AppState.t) : AppState.t :=
  let st := setSettings st DEFAULT_SETTINGS in
  let st := setApplianceWatts st DEFAULT_WATTS in
  let st := setTotalKWhInput st DEFAULT_TOTAL_KWH in
  let st := setMonthlyWatts st 1000 in
  let st := setMonthlyHours st 8 in
  let st := setPurchaseAmountFcfa st 20000 in
  showToast st "Application reset to defaults".

(** The [key] of a tier price field of the sidebar. *)
Inductive PriceKey : Type := KeyPriceT1 | KeyPriceT2 | KeyPriceT3.

(** [{ ...settings, daysPerMonth: v }]. *)
Definition withDaysPerMonth (s : GlobalSettings) (v : number)
  : GlobalSettings :=
  {| daysPerMonth := v;
     priceT1 := s.(priceT1);
     priceT2 := s.(priceT2);
     priceT3 := s.(priceT3) |}.

(** [{ ...settings, [tier.key]: v }]. *)
Definition withPrice (s : GlobalSettings) (key : PriceKey) (v : number)
  : GlobalSettings :=
  match key with
  | KeyPriceT1 =>
      {| daysPerMonth := s.(daysPerMonth); priceT1 := v;
         priceT2 := s.(priceT2); priceT3 := s.(priceT3) |}
  | KeyPriceT2 =>
      {| daysPerMonth := s.(daysPerMonth); priceT1 := s.(priceT1);
         priceT2 := v; priceT3 := s.(priceT3) |}
  | KeyPriceT3 =>
      {| daysPerMonth := s.(daysPerMonth); priceT1 := s.(priceT1);
         priceT2 := s.(priceT2); priceT3 := v |}
  end.

(** What can happen to the component.  A change event carries the
    result of [parseFloat(e.target.value)], an arbitrary number. *)
Inductive Event : Type :=
  | ChangeDaysPerMonth (parsed : number)
  | ChangeTierPrice (key : PriceKey) (parsed : number)
  | ChangeApplianceWatts (parsed : number)
  | ChangeTotalKWh (parsed : number)
  | ChangeMonthlyWatts (parsed : number)
  | ChangeMonthlyHours (parsed : number)
  | ChangePurchaseAmount (parsed : number)
  | SelectMode (m : CalculationMode)
  | SelectMonthlyInputMode (m : MonthlyInputMode)
  | OpenSidebar
  | CloseSidebar
  | ClickReset
  | ClickSidebarReset
  | Copied (msg : string)
  | ToastTimeout.

(** The handlers of the component, one per event. *)
Definition handle (st : AppState.t) (ev : Event) : AppState.t :=
  match ev with
  | ChangeDaysPerMonth parsed =>
      setSettings st
        (withDaysPerMonth st.(AppState.settings) (orElse parsed 1))
  | ChangeTierPrice key parsed =>
      setSettings st (withPrice st.(AppState.settings) key (orElse parsed 0))
  | ChangeApplianceWatts parsed => setApplianceWatts st (orElse parsed 0)
  | ChangeTotalKWh parsed => setTotalKWhInput st (orElse parsed 0)
  | ChangeMonthlyWatts parsed => setMonthlyWatts st (orElse parsed 0)
  | ChangeMonthlyHours parsed => setMonthlyHours st (orElse parsed 0)
  | ChangePurchaseAmount parsed => setPurchaseAmountFcfa st (orElse parsed 0)
  | SelectMode m => setMode st m
  | SelectMonthlyInputMode m => setMonthlyInputMode st m
  | OpenSidebar => setIsSidebarOpen st true
  | CloseSidebar => setIsSidebarOpen st false
  | ClickReset => resetDefaults st
  | ClickSidebarReset => setIsSidebarOpen (resetDefaults st) false
  | Copied msg => showToast st msg
  | ToastTimeout => setToast st None
  end.

(** The state after a sequence of events, from the first render. *)
Definition run (evs : list Event) : AppState.t :=
  fold_left handle evs initialState.

(** The derived tables of a state. *)
Definition applianceRowsOf (st : AppState.t) : list ApplianceRow.t :=
  applianceRows st.(AppState.settings) st.(AppState.applianceWatts).

Definition monthlyDataOf (st : AppState.t) : MonthlyData.t :=
  monthlyData st.(AppState.settings) st.(AppState.monthlyInputMode)
    st.(AppState.totalKWhInput) st.(AppState.monthlyWatts)
    st.(AppState.monthlyHours) st.(AppState.purchaseAmountFcfa).

(** No numeric cell holds [NaN], and the day count is not zero. *)
Definition numericState (st : AppState.t) : Prop :=
  truthy st.(AppState.settings).(daysPerMonth) = true
  /\ isNaN st.(AppState.settings).(priceT1) = false
  /\ isNaN st.(AppState.settings).(priceT2) = false
  /\ isNaN st.(AppState.settings).(priceT3) = false
  /\ isNaN st.(AppState.applianceWatts) = false
  /\ isNaN st.(AppState.totalKWhInput) = false
  /\ isNaN st.(AppState.monthlyWatts) = false
  /\ isNaN st.(AppState.monthlyHours) = false
  /\ isNaN st.(AppState.purchaseAmountFcfa) = false.

(** ** The tier allocation bar ([App], monthly view) *)

Definition progressMax (kWh : number) : number := JS.max kWh 400.

(** The widths, in percent, of the three coloured segments. *)
Definition barWidthT1 (kWh : number) : number :=
  JS.min kWh 150 / progressMax kWh * 100.

Definition barWidthT2 (kWh : number) : number :=
  JS.min (JS.max (kWh - 150) 0) 100 / progressMax kWh * 100.

Definition barWidthT3 (kWh : number) : number :=
  JS.max (kWh - 250) 0 / progressMax kWh * 100.

(** A CSS length [calc(percent% + px px)]. *)
Module CssCalc.
Record t : Type := {
  percent : number;
  px : number
}.
End CssCalc.

(** The [left] style of the current indicator,
    [calc(${Math.min(kWh, progressMax) / progressMax * 100}% - 1px)]. *)
Definition indicatorLeft (kWh : number) : CssCalc.t :=
  {| CssCalc.percent := JS.min kWh (progressMax kWh) / progressMax kWh * 100;
     CssCalc.px := Fin (-1) |}.

(** The caption under the bar. *)
Definition tierCaption (kWh : number) : string :=
  if kWh >? 250 then "Tier 3 Reached"
  else if kWh >? 150 then "Currently in Tier 2"
  else "Stayed in Tier 1".

(** ** CSV export of the appliance table ([App], Export CSV button) *)

Definition newline : string := String (Ascii.ascii_of_nat 10) EmptyString.

Section Csv.

(** [Number.prototype.toFixed] and the conversion of a number to a
    string in a template literal are taken as given. *)
Variable toFixed : number -> nat -> string.
Variable numberToString : number -> string.

Definition applianceCsvLine (r : ApplianceRow.t) : string :=
  (numberToString r.(ApplianceRow.hours) ++ "h/day,"
   ++ toFixed r.(ApplianceRow.kWh) 1 ++ ","
   ++ toFixed r.(ApplianceRow.costT1) 0 ++ ","
   ++ toFixed r.(ApplianceRow.costT2) 0 ++ ","
   ++ toFixed r.(ApplianceRow.costT3) 0)%string.

(** The text handed to [copyToClipboard] by the Export CSV button. *)
Definition applianceCsv (rows : list ApplianceRow.t) : string :=
  let header :=
    "Usage Time,kWh/month,Cost @ Tier 1,Cost @ Tier 2,Cost @ Tier 3"%string in
  let body := String.concat newline (map applianceCsvLine rows) in
  (header ++ newline ++ body)%string.

End Csv.

(** ** The breakdown in binary64 arithmetic *)

(** The tier breakdown of [App] once more, with [number] an IEEE 754
    binary64 value: every [-], [*] and [+] rounds to nearest, as it does
    when the code runs. *)
Module B64.

Local Open Scope float_scope.

Definition number : Set := float.

Definition isNaN (x : number) : bool := negb (x =? x).

(** [Math.min(x, y)]: [NaN] if an operand is, and [-0] below [+0]. *)
Definition min (x y : number) : number :=
  if isNaN x || isNaN y then nan
  else if x <? y then x
  else if y <? x then y
  else if get_sign x then x else y.

(** [Math.max(x, y)]: [NaN] if an operand is, and [+0] above [-0]. *)
Definition max (x y : number) : number :=
  if isNaN x || isNaN y then nan
  else if x <? y then y
  else if y <? x then x
  else if get_sign x then y else x.

Record GlobalSettings : Type := {
  daysPerMonth : number;
  priceT1 : number;
  priceT2 : number;
  priceT3 : number
}.

Record TierConfig : Type := {
  threshold1 : number;
  threshold2 : number
}.

Module MonthlyBreakdown.
Record t : Type := {
  tier : string;
  kWh : number;
  price : number;
  cost : number
}.
End MonthlyBreakdown.

Definition DEFAULT_SETTINGS : GlobalSettings := {|
  daysPerMonth := 30;
  priceT1 := 82.00;
  priceT2 := 136.49;
  priceT3 := 159.36
|}.

Definition TIER_CONFIG : TierConfig := {|
  threshold1 := 150;
  threshold2 := 250
|}.

Section App.

Variable settings : GlobalSettings.

Definition getBreakdownFromKWh (kWh : number) : list MonthlyBreakdown.t :=
  let k1 := min kWh TIER_CONFIG.(threshold1) in
  let k2 := min (max (kWh - TIER_CONFIG.(threshold1)) 0)
                (TIER_CONFIG.(threshold2) - TIER_CONFIG.(threshold1)) in
  let k3 := max (kWh - TIER_CONFIG.(threshold2)) 0 in
  [ {| MonthlyBreakdown.tier := "Tier 1 (0-150)";
       MonthlyBreakdown.kWh := k1;
       MonthlyBreakdown.price := settings.(priceT1);
       MonthlyBreakdown.cost := k1 * settings.(priceT1) |};
    {| MonthlyBreakdown.tier := "Tier 2 (151-250)";
       MonthlyBreakdown.kWh := k2;
       MonthlyBreakdown.price := settings.(priceT2);
       MonthlyBreakdown.cost := k2 * settings.(priceT2) |};
    {| MonthlyBreakdown.tier := "Tier 3 (>250)";
       MonthlyBreakdown.kWh := k3;
       MonthlyBreakdown.price := settings.(priceT3);
       MonthlyBreakdown.cost := k3 * settings.(priceT3) |} ].

(** [breakdown.reduce((acc, b) => acc + b.cost, 0)]. *)
Definition sumCost (breakdown : list MonthlyBreakdown.t) : number :=
  fold_left (fun acc b => acc + b.(MonthlyBreakdown.cost)) breakdown 0.

End App.

(** The per-tier costs of a breakdown, in order. *)
Definition sliceCosts (bd : list MonthlyBreakdown.t) : list number :=
  map MonthlyBreakdown.cost bd.

End B64.

(** * Properties *)

(** ** Comparisons on finite numbers *)

Lemma Qltb_lt (a b : Q) : Qltb a b = true <-> (a < b)%Q.
Proof.
  unfold Qltb. rewrite negb_true_iff.
  destruct (Qle_bool b a) eqn:E.
  - apply Qle_bool_iff in E. split; [discriminate | intro; lra].
  - split; [intros _ | reflexivity].
    apply Qnot_le_lt. intro H. apply Qle_bool_iff in H. congruence.
Qed.

Lemma leb_Fin (a b : Q) : (Fin a <=? Fin b) = true <-> (a <= b)%Q.
Proof. apply Qle_bool_iff. Qed.

Lemma geb_Fin (a b : Q) : (Fin a >=? Fin b) = true <-> (b <= a)%Q.
Proof. apply Qle_bool_iff. Qed.

Lemma gtb_Fin (a b : Q) : (Fin a >? Fin b) = true <-> (b < a)%Q.
Proof. apply Qltb_lt. Qed.

Lemma eqb_Fin (a b : Q) : (Fin a === Fin b) = true <-> (a == b)%Q.
Proof. apply Qeq_bool_iff. Qed.

Lemma leb_Fin_false (a b : Q) : (Fin a <=? Fin b) = false <-> (b < a)%Q.
Proof.
  simpl. split; intro H.
  - apply Qnot_le_lt. intro L. apply Qle_bool_iff in L. congruence.
  - destruct (Qle_bool a b) eqn:E; [|reflexivity].
    apply Qle_bool_iff in E. lra.
Qed.

Lemma Qeq_bool_pos (p : Q) : (0 < p)%Q -> Qeq_bool p 0 = false.
Proof.
  intro H. destruct (Qeq_bool p 0) eqn:E; [|reflexivity].
  apply Qeq_bool_iff in E. lra.
Qed.

(** ** The slices as functions of a rational energy *)

(** Name every [Qmin] and [Qmax] of the goal and keep only its
    specification. *)
Ltac minmax_atoms :=
  repeat match goal with
  | |- context [Qmin ?a ?b] =>
      let m := fresh "m" in
      pose proof (Q.min_spec a b); set (m := Qmin a b) in *; clearbody m
  | |- context [Qmax ?a ?b] =>
      let m := fresh "m" in
      pose proof (Q.max_spec a b); set (m := Qmax a b) in *; clearbody m
  | _ : context [Qmin ?a ?b] |- _ =>
      let m := fresh "m" in
      pose proof (Q.min_spec a b); set (m := Qmin a b) in *; clearbody m
  | _ : context [Qmax ?a ?b] |- _ =>
      let m := fresh "m" in
      pose proof (Q.max_spec a b); set (m := Qmax a b) in *; clearbody m
  end.

Ltac minmax_lra := unfold slice1, slice2, slice3; minmax_atoms; lra.

Lemma slices_nonneg (e : Q) :
  (0 <= e -> 0 <= slice1 e)%Q /\ (0 <= slice2 e)%Q /\ (0 <= slice3 e)%Q.
Proof. split; [intro | split]; minmax_lra. Qed.

Lemma slices_sum (e : Q) : (slice1 e + slice2 e + slice3 e == e)%Q.
Proof. minmax_lra. Qed.

Lemma slices_low (e : Q) :
  (e <= 150)%Q -> (slice1 e == e /\ slice2 e == 0 /\ slice3 e == 0)%Q.
Proof. intro; repeat split; minmax_lra. Qed.

Lemma slices_mid (e : Q) :
  (150 <= e)%Q -> (e <= 250)%Q ->
  (slice1 e == 150 /\ slice2 e == e - 150 /\ slice3 e == 0)%Q.
Proof. intros; repeat split; minmax_lra. Qed.

Lemma slices_high (e : Q) :
  (250 <= e)%Q ->
  (slice1 e == 150 /\ slice2 e == 100 /\ slice3 e == e - 250)%Q.
Proof. intro; repeat split; minmax_lra. Qed.

Lemma slices_mono (e1 e2 : Q) :
  (e1 <= e2)%Q ->
  (slice1 e1 <= slice1 e2 /\ slice2 e1 <= slice2 e2
   /\ slice3 e1 <= slice3 e2)%Q.
Proof. intro; repeat split; minmax_lra. Qed.

(** ** The breakdown on a finite energy *)

Lemma getBreakdownFromKWh_Fin (s : GlobalSettings) (e : Q) :
  getBreakdownFromKWh s (Fin e) =
  [ {| MonthlyBreakdown.tier := "Tier 1 (0-150)";
       MonthlyBreakdown.kWh := Fin (slice1 e);
       MonthlyBreakdown.price := s.(priceT1);
       MonthlyBreakdown.cost := Fin (slice1 e) * s.(priceT1) |};
    {| MonthlyBreakdown.tier := "Tier 2 (151-250)";
       MonthlyBreakdown.kWh := Fin (slice2 e);
       MonthlyBreakdown.price := s.(priceT2);
       MonthlyBreakdown.cost := Fin (slice2 e) * s.(priceT2) |};
    {| MonthlyBreakdown.tier := "Tier 3 (>250)";
       MonthlyBreakdown.kWh := Fin (slice3 e);
       MonthlyBreakdown.price := s.(priceT3);
       MonthlyBreakdown.cost := Fin (slice3 e) * s.(priceT3) |} ].
Proof. reflexivity. Qed.

Lemma totalCost_Fin (d : number) (p1 p2 p3 e : Q) :
  totalCost (Build_GlobalSettings d p1 p2 p3) (Fin e) =
  Fin (0 + slice1 e * p1 + slice2 e * p2 + slice3 e * p3).
Proof. reflexivity. Qed.

(** ** Partition of the energy (C1, C3, C10) *)

(** C1.  For every energy [>= 0] and every rate configuration, the
    breakdown has three slice energies, each of them is [>= 0], and
    their sum is the input energy. *)
Theorem breakdown_partition (s : GlobalSettings) (e : number) :
  (e >=? 0) = true ->
  exists k1 k2 k3 : number,
    sliceEnergies (getBreakdownFromKWh s e) = [k1; k2; k3]
    /\ (k1 >=? 0) = true /\ (k2 >=? 0) = true /\ (k3 >=? 0) = true
    /\ (k1 + k2 + k3 === e) = true.
Proof.
  destruct e as [| |q|]; try discriminate; intro Hq.
  - apply geb_Fin in Hq.
    destruct (slices_nonneg q) as (H1 & H2 & H3).
    exists (Fin (slice1 q)), (Fin (slice2 q)), (Fin (slice3 q)).
    rewrite getBreakdownFromKWh_Fin. split; [reflexivity|].
    repeat split; try (apply geb_Fin; auto).
    apply eqb_Fin, slices_sum.
  - exists (Fin 150), (Fin (250 - 150)), PosInf.
    repeat split.
Qed.

Lemma breakdown_partition_witness :
  (Fin 550 >=? 0) = true /\
  exists k1 k2 k3 : number,
    sliceEnergies (getBreakdownFromKWh DEFAULT_SETTINGS 550) = [k1; k2; k3]
    /\ (k1 >=? 0) = true /\ (k2 >=? 0) = true /\ (k3 >=? 0) = true
    /\ (k1 + k2 + k3 === 550) = true.
Proof.
  split; [reflexivity|].
  apply (breakdown_partition DEFAULT_SETTINGS 550). reflexivity.
Defined.

(** C3.  An energy exactly at a threshold stays in the lower tier:
    150 gives slices 150, 0, 0; 250 gives 150, 100, 0; and 0 gives
    three zero slices, whatever the rates are. *)
Theorem breakdown_at_thresholds (s : GlobalSettings) :
  sameNumbers (sliceEnergies (getBreakdownFromKWh s 150)) [Fin 150; Fin 0; Fin 0]
  /\ sameNumbers (sliceEnergies (getBreakdownFromKWh s 250))
                 [Fin 150; Fin 100; Fin 0]
  /\ sameNumbers (sliceEnergies (getBreakdownFromKWh s 0)) [Fin 0; Fin 0; Fin 0].
Proof.
  repeat split; rewrite getBreakdownFromKWh_Fin;
    repeat constructor; reflexivity.
Qed.

(** C10.  The breakdown always has exactly the three entries of tier 1,
    tier 2 and tier 3, in this order, carrying [priceT1], [priceT2] and
    [priceT3]; and for every input that is a number ([NaN] apart),
    negative ones included, its slice energies sum to the input: below
    zero the tier-1 slice is the input itself and the two others are
    zero. *)
Theorem breakdown_shape_and_sum (s : GlobalSettings) (e : number) :
  exists k1 k2 k3 : number,
    getBreakdownFromKWh s e =
      [ {| MonthlyBreakdown.tier := "Tier 1 (0-150)";
           MonthlyBreakdown.kWh := k1;
           MonthlyBreakdown.price := s.(priceT1);
           MonthlyBreakdown.cost := k1 * s.(priceT1) |};
        {| MonthlyBreakdown.tier := "Tier 2 (151-250)";
           MonthlyBreakdown.kWh := k2;
           MonthlyBreakdown.price := s.(priceT2);
           MonthlyBreakdown.cost := k2 * s.(priceT2) |};
        {| MonthlyBreakdown.tier := "Tier 3 (>250)";
           MonthlyBreakdown.kWh := k3;
           MonthlyBreakdown.price := s.(priceT3);
           MonthlyBreakdown.cost := k3 * s.(priceT3) |} ]
    /\ (isNaN e = false -> (k1 + k2 + k3 === e) = true)
    /\ ((e <? 0) = true ->
        (k1 === e) = true /\ (k2 === 0) = true /\ (k3 === 0) = true).
Proof.
  destruct e as [| |q|].
  - exists NaN, NaN, NaN. repeat split; discriminate.
  - exists NegInf, (Fin (Qmin 0 (250 - 150))), (Fin 0). repeat split.
  - exists (Fin (slice1 q)), (Fin (slice2 q)), (Fin (slice3 q)).
    split; [apply getBreakdownFromKWh_Fin|]. split.
    + intros _. apply eqb_Fin, slices_sum.
    + intro Hneg. apply Qltb_lt in Hneg.
      destruct (slices_low q) as (H1 & H2 & H3); [lra|].
      repeat split; apply eqb_Fin; assumption.
  - exists (Fin 150), (Fin (250 - 150)), PosInf.
    split; [reflexivity|]. split; [reflexivity | discriminate].
Qed.

Lemma breakdown_shape_and_sum_witness :
  exists k1 k2 k3 : number,
    sliceEnergies (getBreakdownFromKWh DEFAULT_SETTINGS (Fin (-20)))
    = [k1; k2; k3]
    /\ (k1 + k2 + k3 === Fin (-20)) = true
    /\ (k1 === Fin (-20)) = true /\ (k2 === 0) = true /\ (k3 === 0) = true.
Proof.
  destruct (breakdown_shape_and_sum DEFAULT_SETTINGS (Fin (-20)))
    as (k1 & k2 & k3 & Hshape & Hsum & Hneg).
  exists k1, k2, k3. split; [rewrite Hshape; reflexivity|].
  split; [apply Hsum; reflexivity | apply Hneg; reflexivity].
Defined.

(** ** Cost as a function of energy (C4, C5) *)

(** C4.  With non-negative tier prices the total cost of the breakdown
    does not decrease when the energy grows: for [0 <= e1 <= e2],
    [totalCost e1 <= totalCost e2]. *)
Theorem totalCost_monotone (d : number) (p1 p2 p3 e1 e2 : Q) :
  (0 <= p1)%Q -> (0 <= p2)%Q -> (0 <= p3)%Q ->
  (0 <= e1)%Q -> (e1 <= e2)%Q ->
  (totalCost (Build_GlobalSettings d p1 p2 p3) e1
   <=? totalCost (Build_GlobalSettings d p1 p2 p3) e2) = true.
Proof.
  intros Hp1 Hp2 Hp3 _ Hle.
  rewrite !totalCost_Fin. apply leb_Fin.
  destruct (slices_mono e1 e2 Hle) as (H1 & H2 & H3).
  pose proof (Qmult_le_compat_r _ _ p1 H1 Hp1).
  pose proof (Qmult_le_compat_r _ _ p2 H2 Hp2).
  pose proof (Qmult_le_compat_r _ _ p3 H3 Hp3).
  lra.
Qed.

Lemma totalCost_monotone_witness :
  (0 <= 82.00)%Q /\ (0 <= 136.49)%Q /\ (0 <= 159.36)%Q /\
  (0 <= 200)%Q /\ (200 <= 300)%Q /\
  (totalCost DEFAULT_SETTINGS 200 <=? totalCost DEFAULT_SETTINGS 300) = true.
Proof.
  repeat (split; [lra|]).
  apply (totalCost_monotone 30 82.00 136.49 159.36 200 300); lra.
Defined.

(** C5, as stated, fails in the arithmetic the code runs: in binary64
    the tier-3 cost [300 * 159.36] of the default scenario is the next
    double above 47808, not 47808. *)
Lemma default_scenario_binary64 :
  B64.sliceCosts
    (B64.getBreakdownFromKWh B64.DEFAULT_SETTINGS 550%float)
  = [12300%float; 13649%float; next_up 47808%float]
  /\ (next_up 47808 =? 47808)%float = false.
Proof. split; reflexivity. Qed.

(** C5, amended.  With the default rates, 550 kWh costs exactly 12300
    in tier 1 and exactly 13649 in tier 2, and the total is exactly
    73757, in binary64 as in exact arithmetic; the tier-3 cost is 47808
    in exact arithmetic and, in binary64, the next double above 47808
    (47808.00000000001), [2^-37] and so less than 1e-11 away from it. *)
Theorem default_scenario_amended :
  (sameNumbers (sliceCosts (getBreakdownFromKWh DEFAULT_SETTINGS 550))
               [Fin 12300; Fin 13649; Fin 47808]
   /\ (totalCost DEFAULT_SETTINGS 550 === 73757) = true)
  /\ exists c1 c2 c3 : float,
       B64.sliceCosts
         (B64.getBreakdownFromKWh B64.DEFAULT_SETTINGS 550%float)
       = [c1; c2; c3]
       /\ (c1 =? 12300)%float = true
       /\ (c2 =? 13649)%float = true
       /\ c3 = next_up 47808%float
       /\ (c3 =? 47808.000000000007)%float = true
       /\ (c3 - 47808 =? 0x1p-37)%float = true
       /\ (abs (c3 - 47808) <? 1e-11)%float = true
       /\ (B64.sumCost
             (B64.getBreakdownFromKWh B64.DEFAULT_SETTINGS 550%float)
           =? 73757)%float = true.
Proof.
  split.
  - split; [repeat constructor|]; reflexivity.
  - exists 12300%float, 13649%float, (next_up 47808%float).
    repeat split.
Qed.

(** ** Inverting the cost (C2) *)

Lemma getKWhFromFcfa_Fin (d : number) (p1 p2 p3 a : Q) :
  (0 < p1)%Q -> (0 < p2)%Q -> (0 < p3)%Q ->
  getKWhFromFcfa (Build_GlobalSettings d p1 p2 p3) a
  = Fin (energyOf p1 p2 p3 a).
Proof.
  intros H1 H2 H3.
  cbv beta iota zeta delta
    [getKWhFromFcfa energyOf JS.leb JS.mul JS.div JS.add JS.sub TIER_CONFIG
     threshold1 threshold2 priceT1 priceT2 priceT3].
  rewrite (Qeq_bool_pos p1 H1), (Qeq_bool_pos p2 H2), (Qeq_bool_pos p3 H3).
  destruct (Qle_bool a (150 * p1)); [reflexivity|].
  destruct (Qle_bool a (150 * p1 + (250 - 150) * p2)); reflexivity.
Qed.

(** The cost of the energy bought by an amount is the amount. *)
Lemma cost_of_energyOf (p1 p2 p3 a : Q) :
  (0 < p1)%Q -> (0 < p2)%Q -> (0 < p3)%Q -> (0 <= a)%Q ->
  let e := energyOf p1 p2 p3 a in
  (0 + slice1 e * p1 + slice2 e * p2 + slice3 e * p3 == a)%Q.
Proof.
  intros H1 H2 H3 Ha. unfold energyOf.
  destruct (Qle_bool a (150 * p1)) eqn:E1.
  - apply Qle_bool_iff in E1. cbv zeta.
    assert (Hhi : (a / p1 <= 150)%Q) by (apply Qle_shift_div_r; lra).
    destruct (slices_low _ Hhi) as (S1 & S2 & S3).
    rewrite S1, S2, S3. field. lra.
  - apply leb_Fin_false in E1.
    destruct (Qle_bool a (150 * p1 + (250 - 150) * p2)) eqn:E2; cbv zeta.
    + apply Qle_bool_iff in E2.
      assert (Hlo : (0 <= (a - 150 * p1) / p2)%Q)
        by (apply Qle_shift_div_l; lra).
      assert (Hhi : ((a - 150 * p1) / p2 <= 250 - 150)%Q)
        by (apply Qle_shift_div_r; lra).
      destruct (slices_mid (150 + (a - 150 * p1) / p2)) as (S1 & S2 & S3);
        [lra | lra |].
      rewrite S1, S2, S3. field. lra.
    + apply leb_Fin_false in E2.
      assert (Hlo : (0 <= (a - 150 * p1 - (250 - 150) * p2) / p3)%Q)
        by (apply Qle_shift_div_l; lra).
      destruct (slices_high (250 + (a - 150 * p1 - (250 - 150) * p2) / p3))
        as (S1 & S2 & S3); [lra|].
      rewrite S1, S2, S3. field. lra.
Qed.

(** C2.  With three positive tier prices, the total cost of the
    breakdown of [getKWhFromFcfa amount] is [amount], for every amount
    [>= 0]; and with the default rates the energy recovered from the
    total cost of the breakdown of [E] is [E], for [E] among 0, 100,
    150, 200, 250 and 400. *)
Theorem cost_energy_roundtrip (d : number) (p1 p2 p3 : Q) :
  (0 < p1)%Q -> (0 < p2)%Q -> (0 < p3)%Q ->
  (forall a : Q, (0 <= a)%Q ->
     (totalCost (Build_GlobalSettings d p1 p2 p3)
        (getKWhFromFcfa (Build_GlobalSettings d p1 p2 p3) a) === a) = true)
  /\ Forall (fun E : Q =>
       (getKWhFromFcfa DEFAULT_SETTINGS (totalCost DEFAULT_SETTINGS E) === E)
       = true)
       [0; 100; 150; 200; 250; 400]%Q.
Proof.
  intros H1 H2 H3. split.
  - intros a Ha.
    rewrite getKWhFromFcfa_Fin, totalCost_Fin by assumption.
    apply eqb_Fin, cost_of_energyOf; assumption.
  - repeat constructor; vm_compute; reflexivity.
Qed.

Lemma cost_energy_roundtrip_witness :
  (0 < 82.00)%Q /\ (0 < 136.49)%Q /\ (0 < 159.36)%Q /\
  (forall a : Q, (0 <= a)%Q ->
     (totalCost DEFAULT_SETTINGS (getKWhFromFcfa DEFAULT_SETTINGS a) === a)
     = true)
  /\ Forall (fun E : Q =>
       (getKWhFromFcfa DEFAULT_SETTINGS (totalCost DEFAULT_SETTINGS E) === E)
       = true)
       [0; 100; 150; 200; 250; 400]%Q.
Proof.
  repeat (split; [lra|]).
  apply (cost_energy_roundtrip 30 82.00 136.49 159.36); lra.
Defined.

(** ** The mode resolver (C6, C7) *)

(** C6.  In Power mode the monthly energy is
    [(monthlyWatts / 1000) * monthlyHours * daysPerMonth]; at 175 W,
    8 hours a day and the default 30 days it is 42 kWh, all of it in
    tier 1, and it costs 42 * 82.00 = 3444 at the default rates. *)
Theorem power_mode_energy :
  (forall (s : GlobalSettings) (total watts hours amount : number),
     MonthlyData.kWh (monthlyData s WATTS total watts hours amount)
     = (watts / 1000) * hours * s.(daysPerMonth))
  /\ (forall total amount : number,
        let m := monthlyData DEFAULT_SETTINGS WATTS total 175 8 amount in
        (MonthlyData.kWh m === 42) = true
        /\ sameNumbers (sliceEnergies (MonthlyData.breakdown m))
                       [Fin 42; Fin 0; Fin 0]
        /\ sameNumbers (sliceCosts (MonthlyData.breakdown m))
                       [Fin 42 * Fin 82.00; Fin 0; Fin 0]
        /\ (MonthlyData.cost m === 3444) = true).
Proof.
  split; [reflexivity|].
  intros total amount m. subst m.
  repeat split; repeat constructor; reflexivity.
Qed.

(** C7.  In Cost mode the cost shown by [monthlyData] is the amount that
    was entered, whatever the breakdown of the derived energy costs; in
    the kWh and Watts modes it is the sum of the three per-tier costs of
    the breakdown. *)
Theorem displayed_cost
  (s : GlobalSettings) (total watts hours amount : number) :
  MonthlyData.cost (monthlyData s FCFA total watts hours amount) = amount
  /\ costIsSumOfTiers (monthlyData s KWH total watts hours amount)
  /\ costIsSumOfTiers (monthlyData s WATTS total watts hours amount).
Proof.
  split; [reflexivity|].
  split; do 3 eexists; split; reflexivity.
Qed.

(** In Cost mode the amount is shown even where the breakdown of the
    derived energy has another total: with a free first tier and nothing
    to spend, the derived energy is [0 / 0]. *)
Example displayed_cost_not_recomputed :
  let s := Build_GlobalSettings 30 0 136.49 159.36 in
  let m := monthlyData s FCFA 550 1000 8 0 in
  MonthlyData.cost m = Fin 0 /\ sumCost (MonthlyData.breakdown m) = NaN.
Proof. split; reflexivity. Qed.

(** ** The validity gate (C8, C9) *)

(** [validateInput] is the sign test alone: [NaN] fails every
    comparison, and nothing tests that the value is finite. *)
Lemma validateInput_sign (v : number) :
  validateInput v true = (v >=? 0) /\ validateInput v false = (v >? 0).
Proof. destruct v; split; reflexivity. Qed.

(** C8, as stated, fails: an infinite wattage is not a finite number, yet
    it passes [validateInput] and the projector returns four rows, all
    of whose energies and costs are infinite. *)
Lemma applianceRows_infinite_watts :
  finiteAndSigned DEFAULT_SETTINGS PosInf = false
  /\ applianceRows DEFAULT_SETTINGS PosInf <> []
  /\ map ApplianceRow.kWh (applianceRows DEFAULT_SETTINGS PosInf)
     = [PosInf; PosInf; PosInf; PosInf].
Proof. repeat split. discriminate. Qed.

(** C8, amended.  The projector returns the empty list whenever one of
    the sign tests fails (days per month [> 0], prices [>= 0], wattage
    [>= 0]; [NaN] fails them all); finiteness is not tested.  Otherwise
    it returns one row per scenario of 4, 8, 12 and 24 hours, holding
    [kWh = (watts / 1000) * hours * daysPerMonth] and the three products
    [kWh * priceT1], [kWh * priceT2] and [kWh * priceT3]. *)
Theorem applianceRows_gate (s : GlobalSettings) (watts : number) :
  applianceRows s watts =
  if (s.(daysPerMonth) >? 0) && (s.(priceT1) >=? 0) && (s.(priceT2) >=? 0)
     && (s.(priceT3) >=? 0) && (watts >=? 0)
  then [ applianceRow s watts 4; applianceRow s watts 8;
         applianceRow s watts 12; applianceRow s watts 24 ]
  else [].
Proof.
  unfold applianceRows, isSettingsValid.
  destruct (validateInput_sign s.(daysPerMonth)) as [_ ->].
  destruct (validateInput_sign s.(priceT1)) as [-> _].
  destruct (validateInput_sign s.(priceT2)) as [-> _].
  destruct (validateInput_sign s.(priceT3)) as [-> _].
  destruct (validateInput_sign watts) as [-> _].
  destruct (s.(daysPerMonth) >? 0), (s.(priceT1) >=? 0), (s.(priceT2) >=? 0),
    (s.(priceT3) >=? 0), (watts >=? 0); reflexivity.
Qed.

(** C9.  On a rate configuration that fails validation the appliance
    projection is empty, but [monthlyData] never consults
    [isSettingsValid]: its breakdown still has three rows, computed with
    the invalid price. *)
Theorem monthlyData_not_gated :
  isSettingsValid negativePriceSettings = false
  /\ applianceRows negativePriceSettings 175 = []
  /\ List.length (MonthlyData.breakdown
               (monthlyData negativePriceSettings KWH 550 1000 8 20000)) = 3%nat
  /\ sameNumbers
       (sliceCosts (MonthlyData.breakdown
                      (monthlyData negativePriceSettings KWH 550 1000 8 20000)))
       [Fin (-12300); Fin 13649; Fin 47808].
Proof. repeat split; repeat constructor; reflexivity. Qed.

(** The breakdown of [monthlyData] has three rows in every state. *)
Lemma monthlyData_three_rows
  (s : GlobalSettings) (mode : MonthlyInputMode)
  (total watts hours amount : number) :
  List.length (MonthlyData.breakdown (monthlyData s mode total watts hours amount))
  = 3%nat.
Proof. reflexivity. Qed.

(** * Further properties of the engine *)

(** ** The cost as a piecewise-linear function *)

(** The total cost of a finite energy in closed form: [e * p1] up to
    150, then [150 * p1 + (e - 150) * p2] up to 250, then
    [150 * p1 + 100 * p2 + (e - 250) * p3]. *)
Theorem totalCost_piecewise (d : number) (p1 p2 p3 e : Q) :
  (totalCost (Build_GlobalSettings d p1 p2 p3) e
   === Fin (if Qle_bool e 150 then e * p1
            else if Qle_bool e 250 then 150 * p1 + (e - 150) * p2
            else 150 * p1 + 100 * p2 + (e - 250) * p3)) = true.
Proof.
  rewrite totalCost_Fin. apply eqb_Fin.
  destruct (Qle_bool e 150) eqn:E1.
  - apply Qle_bool_iff in E1.
    destruct (slices_low e E1) as (S1 & S2 & S3). rewrite S1, S2, S3. ring.
  - apply leb_Fin_false in E1.
    destruct (Qle_bool e 250) eqn:E2.
    + apply Qle_bool_iff in E2.
      destruct (slices_mid e) as (S1 & S2 & S3); [lra | lra |].
      rewrite S1, S2, S3. ring.
    + apply leb_Fin_false in E2.
      destruct (slices_high e) as (S1 & S2 & S3); [lra|].
      rewrite S1, S2, S3. ring.
Qed.

(** ** Zero prices, which the validity gate accepts *)

Lemma validateInput_Fin (q : Q) :
  validateInput (Fin q) true = Qle_bool 0 q
  /\ validateInput (Fin q) false = Qltb 0 q.
Proof. split; reflexivity. Qed.

Lemma div_Fin (a b : Q) : (0 < b)%Q -> Fin a / Fin b = Fin (a / b).
Proof. intro H. unfold JS.div. rewrite (Qeq_bool_pos b H). reflexivity. Qed.

(** A free first tier with nothing to spend.  Whatever the other
    settings are, the energy bought by the amount 0 is [0 / 0]: every
    energy and every cost of the breakdown is [NaN], and the cost shown
    is 0. *)
Theorem free_first_tier_zero_amount
  (d p2 p3 total watts hours : number) :
  let s := Build_GlobalSettings d 0 p2 p3 in
  let m := monthlyData s FCFA total watts hours 0 in
  isSettingsValid s
  = validateInput d false && validateInput p2 true && validateInput p3 true
  /\ MonthlyData.kWh m = NaN
  /\ sliceEnergies (MonthlyData.breakdown m) = [NaN; NaN; NaN]
  /\ sliceCosts (MonthlyData.breakdown m) = [NaN; NaN; NaN]
  /\ MonthlyData.cost m = Fin 0.
Proof.
  intros s m. subst s m. repeat split.
  unfold isSettingsValid. cbn [daysPerMonth priceT1 priceT2 priceT3].
  change (validateInput (Fin 0) true) with true.
  rewrite andb_true_r. reflexivity.
Qed.

(** * Properties of the monthly view *)

(** ** The caption and the bar against the breakdown *)

Ltac minmax_lra_all :=
  unfold slice1, slice2, slice3 in *; minmax_atoms; lra.

Lemma Qltb_ext (a b c d : Q) :
  ((a < b)%Q <-> (c < d)%Q) -> Qltb a b = Qltb c d.
Proof.
  intro H.
  destruct (Qltb a b) eqn:E1, (Qltb c d) eqn:E2; try reflexivity.
  - apply Qltb_lt, H, Qltb_lt in E1. congruence.
  - apply Qltb_lt, H, Qltb_lt in E2. congruence.
Qed.

(** The caption under the bar agrees with the breakdown, for every
    input and every rate configuration: it reads "Tier 3 Reached"
    exactly when the tier-3 slice is positive, "Currently in Tier 2"
    exactly when the tier-3 slice is not positive and the tier-2 slice
    is, and "Stayed in Tier 1" otherwise. *)
Theorem tierCaption_agrees (s : GlobalSettings) (kWh : number) :
  exists k1 k2 k3 : number,
    sliceEnergies (getBreakdownFromKWh s kWh) = [k1; k2; k3]
    /\ tierCaption kWh =
       if k3 >? 0 then "Tier 3 Reached"%string
       else if k2 >? 0 then "Currently in Tier 2"%string
       else "Stayed in Tier 1"%string.
Proof.
  destruct kWh as [| |q|].
  - exists NaN, NaN, NaN. split; reflexivity.
  - exists NegInf, (Fin (Qmin 0 (250 - 150))), (Fin 0). split; reflexivity.
  - exists (Fin (slice1 q)), (Fin (slice2 q)), (Fin (slice3 q)).
    rewrite getBreakdownFromKWh_Fin. split; [reflexivity|].
    unfold tierCaption, JS.gtb, JS.ltb.
    assert (E3 : Qltb 250 q = Qltb 0 (slice3 q))
      by (apply Qltb_ext; split; intro; minmax_lra_all).
    rewrite <- E3.
    destruct (Qltb 250 q) eqn:T3; [reflexivity|].
    assert (E2 : Qltb 150 q = Qltb 0 (slice2 q))
      by (apply Qltb_ext; split; intro; minmax_lra_all).
    rewrite <- E2. reflexivity.
  - exists (Fin 150), (Fin (250 - 150)), PosInf. split; reflexivity.
Qed.

Lemma progressMax_Fin (e : Q) :
  progressMax (Fin e) = Fin (Qmax e 400) /\ (0 < Qmax e 400)%Q.
Proof. split; [reflexivity | minmax_lra]. Qed.

Lemma scaled_Fin (a e : Q) :
  Fin a / progressMax (Fin e) * 100 = Fin (a / Qmax e 400 * 100).
Proof.
  destruct (progressMax_Fin e) as [-> Hpos].
  rewrite div_Fin by assumption. reflexivity.
Qed.

Lemma scaled_nonneg (a e : Q) :
  (0 <= a)%Q -> (0 <= a / Qmax e 400 * 100)%Q.
Proof.
  intro Ha. destruct (progressMax_Fin e) as [_ Hpos].
  assert (0 <= a / Qmax e 400)%Q by (apply Qle_shift_div_l; lra). lra.
Qed.

Lemma scaled_mono (a b e : Q) :
  (a <= b)%Q -> (a / Qmax e 400 * 100 <= b / Qmax e 400 * 100)%Q.
Proof.
  intro Hab. destruct (progressMax_Fin e) as [_ Hpos].
  apply Qmult_le_compat_r; [|lra]. unfold Qdiv.
  apply Qmult_le_compat_r; [assumption|].
  apply Qlt_le_weak, Qinv_lt_0_compat, Hpos.
Qed.

(** The tier allocation bar of a finite energy [>= 0].  The three
    segments are the slice energies of the breakdown, scaled by
    [100 / progressMax]; none is negative and none is longer than the
    percentage at which the indicator stands; that percentage is at most
    100, and it is 100 exactly from 400 kWh on. *)
Theorem allocation_bar (s : GlobalSettings) (e : Q) :
  (0 <= e)%Q ->
  let P := (indicatorLeft e).(CssCalc.percent) in
  (exists k1 k2 k3 : number,
     sliceEnergies (getBreakdownFromKWh s e) = [k1; k2; k3]
     /\ barWidthT1 e = k1 / progressMax e * 100
     /\ barWidthT2 e = k2 / progressMax e * 100
     /\ barWidthT3 e = k3 / progressMax e * 100)
  /\ ((barWidthT1 e >=? 0) = true /\ (barWidthT1 e <=? P) = true)
  /\ ((barWidthT2 e >=? 0) = true /\ (barWidthT2 e <=? P) = true)
  /\ ((barWidthT3 e >=? 0) = true /\ (barWidthT3 e <=? P) = true)
  /\ (P <=? 100) = true
  /\ (P === 100) = (Fin e >=? 400).
Proof.
  intros He P. subst P. split.
  { exists (Fin (slice1 e)), (Fin (slice2 e)), (Fin (slice3 e)).
    rewrite getBreakdownFromKWh_Fin. repeat split. }
  destruct (slices_nonneg e) as (N1 & N2 & N3). specialize (N1 He).
  pose proof (slices_sum e) as Sum.
  destruct (progressMax_Fin e) as [PM Hpos].
  change (barWidthT1 e) with (Fin (slice1 e) / progressMax e * 100).
  change (barWidthT2 e) with (Fin (slice2 e) / progressMax e * 100).
  change (barWidthT3 e) with (Fin (slice3 e) / progressMax e * 100).
  change (CssCalc.percent (indicatorLeft e))
    with (Fin (Qmin e (Qmax e 400)) / progressMax e * 100).
  rewrite !scaled_Fin.
  assert (Hmin : (Qmin e (Qmax e 400) == e)%Q) by minmax_lra.
  assert (seg : forall k : Q, (0 <= k)%Q -> (k <= e)%Q ->
            (Fin (k / Qmax e 400 * 100) >=? 0) = true
            /\ (Fin (k / Qmax e 400 * 100)
                <=? Fin (Qmin e (Qmax e 400) / Qmax e 400 * 100)) = true).
  { intros k K0 Ke. split.
    - apply (geb_Fin _ 0), scaled_nonneg; assumption.
    - apply leb_Fin, scaled_mono. lra. }
  split; [apply seg; lra|]. split; [apply seg; lra|].
  split; [apply seg; lra|].
  set (M := Qmax e 400) in *.
  split.
  - apply leb_Fin. rewrite Hmin.
    assert (e / M <= 1)%Q by (apply Qle_shift_div_r; [assumption|];
                              subst M; minmax_lra).
    lra.
  - cbn [JS.eqb JS.geb JS.leb].
    destruct (Qle_bool 400 e) eqn:E.
    + apply Qle_bool_iff in E. apply Qeq_bool_iff. rewrite Hmin.
      assert (HM : (M == e)%Q) by (subst M; minmax_lra).
      rewrite HM. field. lra.
    + apply (leb_Fin_false 400 e) in E.
      destruct (Qeq_bool (Qmin e M / M * 100) 100) eqn:Q; [|reflexivity].
      apply Qeq_bool_iff in Q. rewrite Hmin in Q.
      assert (HM : (M == 400)%Q) by (subst M; minmax_lra).
      rewrite HM in Q.
      assert (e / 400 * 100 == e / 4)%Q by (field).
      assert (e / 4 < 100)%Q by (apply Qlt_shift_div_r; lra).
      lra.
Qed.

Lemma allocation_bar_witness :
  (0 <= 550)%Q /\
  ((barWidthT3 550 >=? 0) = true
   /\ (barWidthT3 550 <=? (indicatorLeft 550).(CssCalc.percent)) = true)
  /\ ((indicatorLeft 550).(CssCalc.percent) === 100) = (Fin 550 >=? 400).
Proof.
  split; [lra|].
  pose proof (allocation_bar DEFAULT_SETTINGS 550) as H.
  split; apply H; lra.
Defined.

(** * Properties of the input boundary *)

(** The strict test of [validateInput] is the lenient one with zero
    excluded, for every number. *)
Theorem validateInput_strict (v : number) :
  validateInput v false = validateInput v true && negb (v === 0).
Proof.
  destruct v as [| |q|]; try reflexivity.
  destruct (validateInput_Fin q) as [-> ->]. cbn [JS.eqb].
  destruct (Qle_bool 0 q) eqn:L, (Qeq_bool q 0) eqn:E, (Qltb 0 q) eqn:S;
    try reflexivity; exfalso;
    try (apply Qltb_lt in S);
    try (apply Qle_bool_iff in L);
    try (apply Qeq_bool_iff in E);
    try lra.
  - assert (S' : Qltb 0 q = true) by (apply Qltb_lt;
      destruct (Qlt_le_dec 0 q) as [G|G]; [exact G|];
      exfalso; apply Qeq_bool_neq in E; apply E; lra).
    congruence.
  - assert (L' : Qle_bool 0 q = true) by (apply Qle_bool_iff; lra).
    congruence.
Qed.

Lemma orElse_not_NaN (x d : number) :
  isNaN d = false -> isNaN (orElse x d) = false.
Proof.
  intro Hd. unfold orElse.
  destruct (truthy x) eqn:T; [|assumption].
  destruct x; [discriminate | reflexivity ..].
Qed.

Lemma orElse_truthy (x d : number) :
  truthy d = true -> truthy (orElse x d) = true.
Proof.
  intro Hd. unfold orElse. destruct (truthy x) eqn:T; assumption.
Qed.

Lemma numericState_initial : numericState initialState.
Proof. repeat split. Qed.

Lemma numericState_handle (st : AppState.t) (ev : Event) :
  numericState st -> numericState (handle st ev).
Proof.
  intros (Hd & H1 & H2 & H3 & Hw & Ht & Hmw & Hmh & Hp).
  destruct ev as [x|k x|x|x|x|x|x| | | | | | | |]; try destruct k;
    unfold numericState; cbn;
    repeat split;
    try assumption; try reflexivity;
    try (apply orElse_not_NaN; reflexivity);
    try (apply orElse_truthy; reflexivity).
Qed.

(** Whatever the user types, clicks or clears, no numeric cell of the
    state ever holds [NaN] and the day count is never zero: the engine
    only receives numbers. *)
Theorem run_numericState (evs : list Event) : numericState (run evs).
Proof.
  unfold run. generalize numericState_initial.
  generalize initialState as st. induction evs as [|ev evs IH]; intros st Hst.
  - exact Hst.
  - cbn [fold_left]. apply IH, numericState_handle, Hst.
Qed.

Lemma geb_zero_not_NaN (v : number) :
  isNaN v = false -> (v >=? 0) = negb (v <? 0).
Proof.
  destruct v as [| |q|]; try discriminate; try reflexivity; intros _.
  cbn [JS.geb JS.leb JS.ltb]. unfold Qltb. rewrite negb_involutive.
  reflexivity.
Qed.

Lemma gtb_zero_truthy (v : number) :
  truthy v = true -> (v >? 0) = negb (v <? 0).
Proof.
  destruct v as [| |q|]; try discriminate; try reflexivity.
  cbn [truthy JS.gtb JS.ltb]. intro T. apply negb_true_iff in T.
  apply Qeq_bool_neq in T.
  destruct (Qltb 0 q) eqn:A, (Qltb q 0) eqn:B; try reflexivity; exfalso.
  - apply Qltb_lt in A, B. lra.
  - assert (~ (0 < q)%Q) by (intro G; apply Qltb_lt in G; congruence).
    assert (~ (q < 0)%Q) by (intro G; apply Qltb_lt in G; congruence).
    apply T. destruct (Qlt_le_dec 0 q), (Qlt_le_dec q 0); try tauto; lra.
Qed.

(** In every state the component can reach, the settings fail the gate
    exactly when the day count or a price is negative, and the appliance
    table is empty exactly when one of them or the wattage is. *)
Theorem reachable_invalid_iff_negative (evs : list Event) :
  let st := run evs in
  let s := st.(AppState.settings) in
  let negative :=
    (s.(daysPerMonth) <? 0) || (s.(priceT1) <? 0) || (s.(priceT2) <? 0)
    || (s.(priceT3) <? 0) in
  isSettingsValid s = negb negative
  /\ (applianceRowsOf st = []
      <-> negative || (st.(AppState.applianceWatts) <? 0) = true).
Proof.
  intros st s negative.
  destruct (run_numericState evs)
    as (Hd & H1 & H2 & H3 & Hw & _). fold st in Hd, H1, H2, H3, Hw.
  fold s in Hd, H1, H2, H3.
  assert (Hv : isSettingsValid s = negb negative).
  { unfold isSettingsValid, negative.
    destruct (validateInput_sign s.(daysPerMonth)) as [_ ->].
    destruct (validateInput_sign s.(priceT1)) as [-> _].
    destruct (validateInput_sign s.(priceT2)) as [-> _].
    destruct (validateInput_sign s.(priceT3)) as [-> _].
    rewrite (gtb_zero_truthy _ Hd), (geb_zero_not_NaN _ H1),
      (geb_zero_not_NaN _ H2), (geb_zero_not_NaN _ H3).
    rewrite !negb_orb. reflexivity. }
  split; [exact Hv|].
  unfold applianceRowsOf, applianceRows. fold s. rewrite Hv.
  destruct (validateInput_sign st.(AppState.applianceWatts)) as [-> _].
  rewrite (geb_zero_not_NaN _ Hw).
  destruct negative, (st.(AppState.applianceWatts) <? 0);
    cbn; split; intro H; try reflexivity; try discriminate.
Qed.

(** ** Reset *)

(** [resetDefaults] keeps the tab, the input mode and the sidebar of
    the state it is applied to and restores everything the tables are
    computed from: applied twice it changes nothing more, the settings
    pass the gate again, and the appliance table is the one of the
    first render. *)
Theorem resetDefaults_restores (st : AppState.t) :
  let st' := resetDefaults st in
  resetDefaults st' = st'
  /\ st'.(AppState.mode) = st.(AppState.mode)
  /\ st'.(AppState.monthlyInputMode) = st.(AppState.monthlyInputMode)
  /\ st'.(AppState.isSidebarOpen) = st.(AppState.isSidebarOpen)
  /\ isSettingsValid st'.(AppState.settings) = true
  /\ applianceRowsOf st' = applianceRowsOf initialState
  /\ monthlyDataOf st'
     = monthlyDataOf
         (setMonthlyInputMode initialState st.(AppState.monthlyInputMode)).
Proof. destruct st. repeat split. Qed.

(** ** CSV export *)

(** When the gate fails, the Export CSV button copies the header line
    followed by a line break and nothing else, whatever the number
    formatting is. *)
Theorem applianceCsv_gate_closed
  (toFixed : number -> nat -> string) (numberToString : number -> string)
  (s : GlobalSettings) (watts : number) :
  isSettingsValid s && validateInput watts true = false ->
  applianceCsv toFixed numberToString (applianceRows s watts)
  = ("Usage Time,kWh/month,Cost @ Tier 1,Cost @ Tier 2,Cost @ Tier 3"
     ++ newline)%string.
Proof.
  intro H. unfold applianceRows.
  apply andb_false_iff in H. destruct H as [H|H]; rewrite H.
  - reflexivity.
  - rewrite orb_true_r. reflexivity.
Qed.

Lemma applianceCsv_gate_closed_witness :
  isSettingsValid (Build_GlobalSettings 30 82.00 (-5) 159.36)
  && validateInput 175 true = false
  /\ applianceCsv (fun _ _ => "0"%string) (fun _ => "0"%string)
       (applianceRows (Build_GlobalSettings 30 82.00 (-5) 159.36) 175)
     = ("Usage Time,kWh/month,Cost @ Tier 1,Cost @ Tier 2,Cost @ Tier 3"
        ++ newline)%string.
Proof.
  split; [reflexivity|].
  apply (applianceCsv_gate_closed (fun _ _ => "0"%string)
           (fun _ => "0"%string)
           (Build_GlobalSettings 30 82.00 (-5) 159.36) 175).
  reflexivity.
Defined.
